(** * gps_parser.py: GPX track to QGroundControl plan, shallow embedding

    The Python program reads a GPX track ([parse_gpx]), keeps the points of
    a bounding box ([filter_coords_by_bbox]), samples them with a stride and
    builds a .plan document ([create_plan_json]); [main] is the command-line
    driver with its exit codes.

    Python floats are IEEE-754 binary64 values, modelled by [spec_float]
    (Corelib's SpecFloat); Python's [<] and [<=] on floats are [SFltb] and
    [SFleb], which are false as soon as a NaN is involved. *)

From Stdlib Require Import ZArith List String Ascii Bool Lia.
From Stdlib Require Import Floats.SpecFloat.
Import ListNotations.
Open Scope Z_scope.
Open Scope list_scope.

(** ** Python values and exceptions *)

(** A Python float. *)
Definition flt := spec_float.

(** binary64 parameters: 53-bit precision, exponent bound 1024. *)
Definition prec : Z := 53.
Definition emax : Z := 1024.

(** The float literal [0.0]. *)
Definition zero : flt := S754_zero false.

(** The float of an integer, as Python's [float(int)] rounds it. *)
Definition float_of_Z (z : Z) : flt := binary_normalize prec emax z 0 false.

(** Python's [a < b] and [a <= b] on floats. *)
Definition py_lt (a b : flt) : bool := SFltb a b.
Definition py_le (a b : flt) : bool := SFleb a b.

(** Python's builtin [min(a, b)]: the first argument is kept unless the
    second is strictly smaller. *)
Definition py_min (a b : flt) : flt := if py_lt b a then b else a.

(** Python's builtin [max(a, b)]: the first argument is kept unless the
    second is strictly greater ([b > a], i.e. [a < b]). *)
Definition py_max (a b : flt) : flt := if py_lt a b then b else a.

(** The exceptions the program raises or catches. *)
Inductive exn :=
| ValueError
| KeyError
| IndexError
| FileNotFoundError
| OSError.

(** A Python computation: a value, or an exception in flight. *)
Inductive py (A : Type) :=
| Ok (a : A)
| Raise (e : exn).
Arguments Ok {A} a.
Arguments Raise {A} e.

Definition py_bind {A B} (m : py A) (k : A -> py B) : py B :=
  match m with
  | Ok a => k a
  | Raise e => Raise e
  end.

Notation "x <- m ;; k" := (py_bind m (fun x => k))
  (at level 61, m at next level, right associativity).

(** ** Track points *)

(** A parsed point, the tuple [(lat, lon, alt)]. *)
Record point := mkpoint { lat : flt; lon : flt; alt : flt }.

(** [coords[i]] on a Python list: negative indices count from the end,
    anything else out of range raises [IndexError]. *)
Definition py_index {A} (l : list A) (i : Z) : py A :=
  let n := Z.of_nat (List.length l) in
  let j := if i <? 0 then n + i else i in
  if (0 <=? j) && (j <? n) then
    match nth_error l (Z.to_nat j) with
    | Some x => Ok x
    | None => Raise IndexError
    end
  else Raise IndexError.

(** ** filter_coords_by_bbox *)

(** The loop body: [min_lat <= lat <= max_lat and min_lon <= lon <= max_lon]. *)
Definition in_bbox (min_lat max_lat min_lon max_lon : flt) (p : point) : bool :=
  (py_le min_lat (lat p) && py_le (lat p) max_lat)
  && (py_le min_lon (lon p) && py_le (lon p) max_lon).

(** [for (lat, lon, alt) in coords: if ...: filtered.append(...)] *)
Fixpoint bbox_loop (min_lat max_lat min_lon max_lon : flt)
    (coords filtered : list point) : list point :=
  match coords with
  | [] => filtered
  | p :: rest =>
      bbox_loop min_lat max_lat min_lon max_lon rest
        (if in_bbox min_lat max_lat min_lon max_lon p
         then filtered ++ [p] else filtered)
  end.

(** [coords] is [None] when the parser failed. *)
Definition filter_coords_by_bbox (coords : option (list point))
    (lat1 lon1 lat2 lon2 : flt) : list point :=
  match coords with
  | None => []
  | Some cs =>
      let min_lat := py_min lat1 lat2 in
      let max_lat := py_max lat1 lat2 in
      let min_lon := py_min lon1 lon2 in
      let max_lon := py_max lon1 lon2 in
      bbox_loop min_lat max_lat min_lon max_lon cs []
  end.

(** ** create_plan_json *)

(** A mission item of the plan; [None] in [params] is JSON [null]. *)
Record item := mkitem {
  AMSLAltAboveTerrain : option flt;
  Altitude : flt;
  AltitudeMode : Z;
  autoContinue : bool;
  command : Z;
  doJumpId : Z;
  frame : Z;
  params : list (option flt);
  item_type : string
}.

Record mission := mkmission {
  cruiseSpeed : Z;
  firmwareType : Z;
  hoverSpeed : Z;
  items : list item;
  plannedHomePosition : list flt;
  vehicleType : Z;
  mission_version : Z
}.

(** The [geoFence] block: its [circles] and [polygons] lists stay empty. *)
Record geofence := mkgeofence {
  circles : list unit;
  polygons : list unit;
  geofence_version : Z
}.

(** The [rallyPoints] block: its [points] list stays empty. *)
Record rally := mkrally {
  rally_points : list unit;
  rally_version : Z
}.

Record plan := mkplan {
  fileType : string;
  groundStation : string;
  plan_version : Z;
  plan_mission : mission;
  geoFence : geofence;
  rallyPoints : rally
}.

(** The values of [range(start, stop, step)] for a non-zero [step]; [fuel]
    bounds the number of values (each one moves at least 1 toward [stop]). *)
Fixpoint range_go (fuel : nat) (i stop step : Z) : list Z :=
  match fuel with
  | O => []
  | S f =>
      if ((0 <? step) && (i <? stop)) || ((step <? 0) && (stop <? i))
      then i :: range_go f (i + step) stop step
      else []
  end.

(** Python's [range(start, stop, step)]: a zero step raises [ValueError]. *)
Definition py_range (start stop step : Z) : py (list Z) :=
  if step =? 0 then Raise ValueError
  else Ok (range_go (Z.to_nat (Z.abs (stop - start))) start stop step).

(** The dictionary built for one selected point. *)
Definition make_item (p : point) (do_jump_id : Z) (default_alt acceptance_radius : flt)
    : item :=
  let alt := default_alt in
  {| AMSLAltAboveTerrain := None;
     Altitude := alt;
     AltitudeMode := 1;
     autoContinue := true;
     command := 16;
     doJumpId := do_jump_id;
     frame := 3;
     params := [Some zero; Some acceptance_radius; Some zero; None;
                Some (lat p); Some (lon p); Some alt];
     item_type := "SimpleItem" |}.

(** [for i in range(0, len(coords), step): lat, lon, gpx_alt = coords[i] ...],
    threading [items] and [do_jump_id]. *)
Fixpoint items_loop (coords : list point) (default_alt acceptance_radius : flt)
    (idx : list Z) (items : list item) (do_jump_id : Z) : py (list item) :=
  match idx with
  | [] => Ok items
  | i :: rest =>
      p <- py_index coords i ;;
      items_loop coords default_alt acceptance_radius rest
        (items ++ [make_item p do_jump_id default_alt acceptance_radius])
        (do_jump_id + 1)
  end.

(** The plan dictionary around the items. *)
Definition make_plan (its : list item) (planned_home : list flt) : plan :=
  {| fileType := "Plan";
     groundStation := "QGroundControl";
     plan_version := 1;
     plan_mission :=
       {| cruiseSpeed := 5;
          firmwareType := 4;
          hoverSpeed := 5;
          items := its;
          plannedHomePosition := planned_home;
          vehicleType := 4;
          mission_version := 2 |};
     geoFence := {| circles := []; polygons := []; geofence_version := 1 |};
     rallyPoints := {| rally_points := []; rally_version := 1 |} |}.

(** [create_plan_json(coords, step, default_alt, acceptance_radius)]:
    [Ok None] is the returned [None]. *)
Definition create_plan_json (coords : list point) (step : Z)
    (default_alt acceptance_radius : flt) : py (option plan) :=
  match coords with
  | [] => Ok None
  | first :: _ =>
      let planned_home := [lat first; lon first; default_alt] in
      idx <- py_range 0 (Z.of_nat (List.length coords)) step ;;
      its <- items_loop coords default_alt acceptance_radius idx [] 1 ;;
      match its with
      | [] => Ok None
      | _ => Ok (Some (make_plan its planned_home))
      end
  end.

(** The items [make_item] gives to the points [ps] numbered from [j] on. *)
Fixpoint numbered_items (ps : list point) (j : Z) (default_alt acceptance_radius : flt)
    : list item :=
  match ps with
  | [] => []
  | p :: rest =>
      make_item p j default_alt acceptance_radius
      :: numbered_items rest (j + 1) default_alt acceptance_radius
  end.

(** ** Element trees (xml.etree.ElementTree) *)

Open Scope string_scope.
#[local] Set Warnings "-register-all".

(** An element: its tag (["{uri}local"] when namespaced), its attributes,
    its [text] ([None] when it has none) and its children. *)
Inductive element :=
| El (tag : string) (attrib : list (string * string)) (text : option string)
     (children : list element).

Definition el_tag (e : element) : string := let '(El t _ _ _) := e in t.
Definition el_attrib (e : element) := let '(El _ a _ _) := e in a.
Definition el_text (e : element) : option string := let '(El _ _ x _) := e in x.
Definition el_children (e : element) : list element := let '(El _ _ _ c) := e in c.

(** All elements of a subtree in document order, the root first. *)
Fixpoint iter_all (e : element) : list element :=
  match e with
  | El _ _ _ ch =>
      e :: (fix go (l : list element) : list element :=
              match l with
              | [] => []
              | c :: r => List.app (iter_all c) (go r)
              end) ch
  end.

(** [root.iter(tag)] *)
Definition iter_tag (tag : string) (root : element) : list element :=
  filter (fun e => String.eqb (el_tag e) tag) (iter_all root).

(** [elem.find(tag)]: the first direct child with that tag. *)
Definition find_child (tag : string) (e : element) : option element :=
  find (fun c => String.eqb (el_tag c) tag) (el_children e).

(** [elem.attrib[key]] *)
Fixpoint attr_lookup (key : string) (a : list (string * string)) : option string :=
  match a with
  | [] => None
  | (k, v) :: r => if String.eqb k key then Some v else attr_lookup key r
  end.

(** ** String helpers used on the root tag *)

(** [sub in s] *)
Fixpoint str_contains (sub s : string) : bool :=
  match s with
  | EmptyString => String.eqb sub ""
  | String _ r => String.prefix sub s || str_contains sub r
  end.

(** [s.split(c)[0]] for a one-character separator. *)
Fixpoint split_first (c : ascii) (s : string) : string :=
  match s with
  | EmptyString => ""
  | String x r => if Ascii.eqb x c then "" else String x (split_first c r)
  end.

(** [s.lstrip(c)] and [s.rstrip(c)] for one character; [strip] is both. *)
Fixpoint lstrip (c : ascii) (s : string) : string :=
  match s with
  | EmptyString => ""
  | String x r => if Ascii.eqb x c then lstrip c r else s
  end.

Fixpoint rstrip (c : ascii) (s : string) : string :=
  match s with
  | EmptyString => ""
  | String x r =>
      let r' := rstrip c r in
      if String.eqb r' "" && Ascii.eqb x c then "" else String x r'
  end.

Definition strip (c : ascii) (s : string) : string := rstrip c (lstrip c s).

(** ** parse_gpx *)

(** What [ET.parse(gpx_path)] does: return the tree, raise [ET.ParseError],
    raise [FileNotFoundError], or raise another [OSError] (permission
    denied, a directory, ...). *)
Inductive et_parse_result :=
| ETParsed (root : element)
| ETParseError
| ETFileNotFound
| ETOtherOSError.

(** [if root.tag.startswith("{") and "}gpx" in root.tag:
        ns = root.tag.split("}")[0].strip("{")] *)
Definition detect_ns (root_tag : string) : option string :=
  if String.prefix "{" root_tag && str_contains "}gpx" root_tag
  then Some (strip "{"%char (split_first "}"%char root_tag))
  else None.

(** [nstag(tag)]: [if ns:] is false for [None] and for the empty string. *)
Definition nstag (ns : option string) (tag : string) : string :=
  match ns with
  | Some u => if String.eqb u "" then tag else "{" ++ u ++ "}" ++ tag
  | None => tag
  end.

Section Parse.

(** Python's [float(s)] on a string: [None] is the [ValueError]. *)
Variable py_float : string -> option flt.

(** [float(trkpt.attrib[key])] *)
Definition float_attr (key : string) (t : element) : py flt :=
  match attr_lookup key (el_attrib t) with
  | None => Raise KeyError
  | Some s =>
      match py_float s with
      | None => Raise ValueError
      | Some f => Ok f
      end
  end.

(** The altitude: [0.0] unless the [ele] child exists and its text parses. *)
Definition ele_alt (ns : option string) (t : element) : flt :=
  match find_child (nstag ns "ele") t with
  | Some e =>
      match el_text e with
      | Some s =>
          match py_float s with
          | Some a => a
          | None => zero
          end
      | None => zero
      end
  | None => zero
  end.

(** The body of the [try] block for one [trkpt]. *)
Definition parse_trkpt (ns : option string) (t : element) : py point :=
  la <- float_attr "lat" t ;;
  lo <- float_attr "lon" t ;;
  Ok (mkpoint la lo (ele_alt ns t)).

(** [for trkpt in root.iter(nstag("trkpt")): try ... except KeyError: continue
    except ValueError: continue] *)
Fixpoint trkpt_loop (ns : option string) (ts : list element) (coords : list point)
    : py (list point) :=
  match ts with
  | [] => Ok coords
  | t :: rest =>
      match parse_trkpt ns t with
      | Ok p => trkpt_loop ns rest (List.app coords [p])
      | Raise KeyError | Raise ValueError => trkpt_loop ns rest coords
      | Raise e => Raise e
      end
  end.

(** [parse_gpx(gpx_path)], given what [ET.parse(gpx_path)] does. *)
Definition parse_gpx (r : et_parse_result) : py (option (list point)) :=
  match r with
  | ETParseError | ETFileNotFound => Ok None
  | ETOtherOSError => Raise OSError
  | ETParsed root =>
      let ns := detect_ns (el_tag root) in
      coords <- trkpt_loop ns (iter_tag (nstag ns "trkpt") root) [] ;;
      Ok (Some coords)
  end.

End Parse.

(** ** Reading a track point, in the spec's terms *)

(** The float value of an attribute, when present and numeric. *)
Definition attr_float (py_float : string -> option flt) (key : string) (t : element)
    : option flt :=
  match attr_lookup key (el_attrib t) with
  | Some s => py_float s
  | None => None
  end.

(** The float value of the text of the [ele] child, when there is one and it
    is numeric. *)
Definition ele_float (py_float : string -> option flt) (ns : option string) (t : element)
    : option flt :=
  match find_child (nstag ns "ele") t with
  | Some e =>
      match el_text e with
      | Some s => py_float s
      | None => None
      end
  | None => None
  end.

(** A track point with a numeric [lat] and a numeric [lon]. *)
Definition latlon_valid (py_float : string -> option flt) (t : element) : bool :=
  match attr_float py_float "lat" t, attr_float py_float "lon" t with
  | Some _, Some _ => true
  | _, _ => false
  end.

(** ** Namespaced documents *)

(** The same document with every element put in namespace [u]: each tag
    [t] becomes ["{u}t"], as ElementTree reports it; attributes are
    unprefixed and keep their names. *)
Fixpoint ns_elem (u : string) (e : element) : element :=
  match e with
  | El t a x ch => El ("{" ++ u ++ "}" ++ t) a x (map (ns_elem u) ch)
  end.

(** A namespace URI with no brace in it. *)
Definition no_braces (u : string) : bool :=
  forallb (fun c => negb (Ascii.eqb c "{"%char) && negb (Ascii.eqb c "}"%char))
          (list_ascii_of_string u).

(** Induction on elements, through the list of children. *)
Fixpoint element_ind' (P : element -> Prop)
    (H : forall t a x ch, Forall P ch -> P (El t a x ch)) (e : element) : P e :=
  match e with
  | El t a x ch =>
      H t a x ch
        ((fix go (l : list element) : Forall P l :=
            match l with
            | [] => Forall_nil P
            | c :: r => Forall_cons c (element_ind' P H c) (go r)
            end) ch)
  end.

(** ** main *)

(** How a run ends: the process exit status and the plan file written, if
    any. *)
Record outcome := mkoutcome {
  exit_code : Z;
  written : option (string * plan)
}.

(** [sys.exit(n)] before anything is written. *)
Definition exit_with (n : Z) : outcome := mkoutcome n None.

Section Main.

(** Python's [int(s)] and [float(s)] on strings: [None] is the [ValueError]. *)
Variable py_int : string -> option Z.
Variable py_float : string -> option flt.

(** The body of [main()] on [sys.argv]: [fs_parse path] is what
    [ET.parse(path)] does and [write_ok path] whether opening and writing
    [path] succeeds (otherwise an [IOError] is raised). A [sys.exit(n)] is an
    [Ok] outcome with code [n]. *)
Definition main_body (argv : list string) (fs_parse : string -> et_parse_result)
    (write_ok : string -> bool) : py outcome :=
  if (List.length argv <? 8)%nat then Ok (exit_with 1) else
  let gpx_file := nth 1 argv "" in
  let output_plan := nth 7 argv "" in
  match py_int (nth 2 argv "") with
  | None => Ok (exit_with 1)
  | Some step =>
      if (step <? 1)%Z then Ok (exit_with 1) else
      match py_float (nth 3 argv ""), py_float (nth 4 argv ""),
            py_float (nth 5 argv ""), py_float (nth 6 argv "") with
      | Some lat1, Some lon1, Some lat2, Some lon2 =>
          coords <- parse_gpx py_float (fs_parse gpx_file) ;;
          match coords with
          | None => Ok (exit_with 2)
          | Some [] => Ok (exit_with 2)
          | Some cs =>
              match filter_coords_by_bbox (Some cs) lat1 lon1 lat2 lon2 with
              | [] => Ok (exit_with 0)
              | coords_in_box =>
                  plan_data <- create_plan_json coords_in_box step zero (float_of_Z 2) ;;
                  match plan_data with
                  | None => Ok (exit_with 4)
                  | Some pd =>
                      if write_ok output_plan
                      then Ok (mkoutcome 0 (Some (output_plan, pd)))
                      else Ok (exit_with 5)
                  end
              end
          end
      | _, _, _, _ => Ok (exit_with 1)
      end
  end.

(** The process: an exception escaping [main()] ends the interpreter with
    status 1 after printing the traceback; a normal return is status 0. *)
Definition main (argv : list string) (fs_parse : string -> et_parse_result)
    (write_ok : string -> bool) : outcome :=
  match main_body argv fs_parse write_ok with
  | Ok o => o
  | Raise _ => exit_with 1
  end.

End Main.

(** ** Concrete number parsers for evaluation

    [dec_Z] reads an optional [-] followed by decimal digits, as Python's
    [int()] does on such strings; [dec_float] reads the same strings as
    Python's [float()] does (the integer rounded to binary64). *)

Fixpoint digits_acc (s : string) (acc : Z) : option Z :=
  match s with
  | EmptyString => Some acc
  | String c r =>
      let n := Z.of_nat (nat_of_ascii c) - 48 in
      if ((0 <=? n) && (n <=? 9))%Z then digits_acc r (10 * acc + n) else None
  end.

Definition dec_Z (s : string) : option Z :=
  match s with
  | EmptyString => None
  | String "-"%char EmptyString => None
  | String "-"%char r => option_map Z.opp (digits_acc r 0)
  | _ => digits_acc s 0
  end.

Definition dec_float (s : string) : option flt := option_map float_of_Z (dec_Z s).

(** The float [1.0]. *)
Definition one : flt := float_of_Z 1.

(** [sys.argv] passes the checks of [main]: at least 8 entries, a step
    [int(argv[2]) = st >= 1] and four corner coordinates [float(argv[3..6])]. *)
Definition args_ok (py_int : string -> option Z) (py_float : string -> option flt)
    (argv : list string) (st : Z) (lat1 lon1 lat2 lon2 : flt) : Prop :=
  (8 <= List.length argv)%nat
  /\ py_int (nth 2 argv "") = Some st /\ 1 <= st
  /\ py_float (nth 3 argv "") = Some lat1 /\ py_float (nth 4 argv "") = Some lon1
  /\ py_float (nth 5 argv "") = Some lat2 /\ py_float (nth 6 argv "") = Some lon2.

(** The float [2.0], the acceptance radius [main] passes. *)
Definition two : flt := float_of_Z 2.

(** * Properties *)

Open Scope Z_scope.
Open Scope list_scope.

(** ** Float comparisons *)

Ltac destruct_bools :=
  repeat match goal with
  | b : bool |- _ => destruct b
  end.

Definition is_nan (x : flt) : bool :=
  match x with
  | S754_nan => true
  | _ => false
  end.

Lemma SFcompare_swap : forall a b,
  SFcompare b a = option_map CompOpp (SFcompare a b).
Proof.
  intros [sa|sa| |sa ma ea] [sb|sb| |sb mb eb]; try reflexivity;
    try (destruct sa; reflexivity); try (destruct sb; reflexivity);
    try (destruct sa, sb; reflexivity).
  pose proof (Pos.compare_cont_antisym ma mb Eq) as A; simpl in A.
  destruct sa, sb; simpl; try reflexivity;
    rewrite (Z.compare_antisym ea eb);
    destruct (Z.compare ea eb); simpl; try reflexivity;
    rewrite <- A; try reflexivity;
    destruct (Pos.compare_cont Eq ma mb); reflexivity.
Qed.

Lemma SFcompare_not_nan : forall a b,
  is_nan a = false -> is_nan b = false -> exists c, SFcompare a b = Some c.
Proof.
  intros [sa|sa| |sa ma ea] [sb|sb| |sb mb eb] Ha Hb; simpl in *;
    try discriminate; eexists; reflexivity.
Qed.

(** Two floats that compare equal are the same value or both zeros. *)
Lemma SFcompare_Eq_inv : forall a b,
  SFcompare a b = Some Eq ->
  a = b \/ (exists sa sb, a = S754_zero sa /\ b = S754_zero sb).
Proof.
  intros [sa|sa| |sa ma ea] [sb|sb| |sb mb eb] H; simpl in H;
    try discriminate; try (right; eauto; fail);
    destruct_bools; try discriminate; try (left; reflexivity);
    injection H as H;
    destruct (Z.compare_spec ea eb) as [E|E|E]; try discriminate; subst; left;
    f_equal; apply Pos.compare_eq_iff;
    destruct (Pos.compare_cont Eq ma mb) eqn:C; simpl in H; try discriminate;
    exact C.
Qed.

Lemma SFcompare_Eq_left : forall a b x,
  SFcompare a b = Some Eq -> SFcompare a x = SFcompare b x.
Proof.
  intros a b x H.
  destruct (SFcompare_Eq_inv a b H) as [->|(sa & sb & -> & ->)]; [reflexivity|].
  destruct x; reflexivity.
Qed.

Lemma SFcompare_Eq_right : forall a b x,
  SFcompare a b = Some Eq -> SFcompare x a = SFcompare x b.
Proof.
  intros a b x H.
  rewrite (SFcompare_swap a x), (SFcompare_swap b x).
  rewrite (SFcompare_Eq_left a b x H); reflexivity.
Qed.

(** For non-NaN arguments, [min(a, b)] and [min(b, a)] compare alike with
    everything, and so do [max(a, b)] and [max(b, a)]. *)
Lemma py_min_comm_le : forall a b x,
  is_nan a = false -> is_nan b = false ->
  py_le (py_min a b) x = py_le (py_min b a) x.
Proof.
  intros a b x Ha Hb.
  unfold py_min, py_lt, SFltb.
  rewrite (SFcompare_swap a b).
  destruct (SFcompare_not_nan a b Ha Hb) as [c Hc]; rewrite Hc.
  destruct c; simpl; try reflexivity.
  unfold py_le, SFleb; rewrite (SFcompare_Eq_left a b x Hc); reflexivity.
Qed.

Lemma py_max_comm_le : forall a b x,
  is_nan a = false -> is_nan b = false ->
  py_le x (py_max a b) = py_le x (py_max b a).
Proof.
  intros a b x Ha Hb.
  unfold py_max, py_lt, SFltb.
  rewrite (SFcompare_swap a b).
  destruct (SFcompare_not_nan a b Ha Hb) as [c Hc]; rewrite Hc.
  destruct c; simpl; try reflexivity.
  unfold py_le, SFleb; rewrite (SFcompare_Eq_right a b x Hc); reflexivity.
Qed.

(** ** The bounding-box loop *)

Lemma bbox_loop_filter : forall a b c d cs acc,
  bbox_loop a b c d cs acc = acc ++ List.filter (in_bbox a b c d) cs.
Proof.
  intros a b c d cs; induction cs as [|p cs IH]; intros acc; simpl.
  - rewrite app_nil_r; reflexivity.
  - rewrite IH; destruct (in_bbox a b c d p); simpl;
      [rewrite <- app_assoc; reflexivity | reflexivity].
Qed.

(** ** filter_coords_by_bbox *)

(** C10: the parse-failure sentinel [None] is accepted and filtered to the
    empty list, whatever the corners. *)
Theorem filter_coords_by_bbox_None : forall lat1 lon1 lat2 lon2,
  filter_coords_by_bbox None lat1 lon1 lat2 lon2 = [].
Proof. reflexivity. Qed.

(** C2: the result is the order-preserving subsequence of the points whose
    latitude lies in [[min(lat1, lat2), max(lat1, lat2)]] and whose
    longitude lies in [[min(lon1, lon2), max(lon1, lon2)]], both bounds
    inclusive ([min], [max] and [<=] being Python's on floats); a point is in
    the result iff it is an input point satisfying this condition. *)
Theorem filter_coords_by_bbox_spec : forall pts lat1 lon1 lat2 lon2,
  let inside p :=
    py_le (py_min lat1 lat2) (lat p) && py_le (lat p) (py_max lat1 lat2)
    && py_le (py_min lon1 lon2) (lon p) && py_le (lon p) (py_max lon1 lon2) in
  filter_coords_by_bbox (Some pts) lat1 lon1 lat2 lon2 = List.filter inside pts
  /\ (forall p, In p (filter_coords_by_bbox (Some pts) lat1 lon1 lat2 lon2)
                <-> In p pts /\ inside p = true).
Proof.
  intros pts lat1 lon1 lat2 lon2 inside.
  assert (E : filter_coords_by_bbox (Some pts) lat1 lon1 lat2 lon2
              = List.filter inside pts).
  { simpl; rewrite bbox_loop_filter; simpl.
    apply filter_ext; intros p; unfold in_bbox, inside.
    rewrite !andb_assoc; reflexivity. }
  split; [exact E|].
  intros p; rewrite E; apply filter_In.
Qed.

(** C8 as stated fails: with a NaN corner latitude, Python's [min] and
    [max] depend on the argument order, and so does the filter. The point
    (1.0, 1.0) is dropped for corners (nan, 1.0), (1.0, 1.0) but kept for
    (1.0, 1.0), (nan, 1.0). *)
Lemma filter_coords_by_bbox_nan_corner_order :
  filter_coords_by_bbox (Some [mkpoint one one zero]) S754_nan one one one = []
  /\ filter_coords_by_bbox (Some [mkpoint one one zero]) one one S754_nan one
     = [mkpoint one one zero].
Proof. split; vm_compute; reflexivity. Qed.

(** C8 (amended): when no corner coordinate is NaN, swapping the two corners
    does not change the result. *)
Theorem filter_coords_by_bbox_corner_swap : forall coords lat1 lon1 lat2 lon2,
  is_nan lat1 = false -> is_nan lon1 = false ->
  is_nan lat2 = false -> is_nan lon2 = false ->
  filter_coords_by_bbox coords lat1 lon1 lat2 lon2
  = filter_coords_by_bbox coords lat2 lon2 lat1 lon1.
Proof.
  intros [pts|] lat1 lon1 lat2 lon2 Ha1 Ho1 Ha2 Ho2; [|reflexivity].
  simpl; rewrite !bbox_loop_filter; simpl.
  apply filter_ext; intros p; unfold in_bbox.
  rewrite (py_min_comm_le lat1 lat2), (py_max_comm_le lat1 lat2),
    (py_min_comm_le lon1 lon2), (py_max_comm_le lon1 lon2) by assumption.
  reflexivity.
Qed.

Lemma filter_coords_by_bbox_corner_swap_witness :
  (is_nan one = false /\ is_nan zero = false)
  /\ filter_coords_by_bbox (Some [mkpoint one one zero]) one zero zero one
     = filter_coords_by_bbox (Some [mkpoint one one zero]) zero one one zero.
Proof.
  split; [split; reflexivity|].
  apply filter_coords_by_bbox_corner_swap; reflexivity.
Defined.

(** ** Python's range *)

Lemma ceil_div_nonpos : forall n st, 0 < st -> n <= 0 ->
  Z.to_nat ((n + st - 1) / st) = 0%nat.
Proof.
  intros n st HS Hn.
  assert ((n + st - 1) / st < 1) by (apply Z.div_lt_upper_bound; lia).
  lia.
Qed.

Lemma range_go_spec : forall fuel i L st, 0 < st ->
  (Z.to_nat (L - i) <= fuel)%nat ->
  range_go fuel i L st
  = map (fun k => i + Z.of_nat k * st) (seq 0 (Z.to_nat ((L - i + st - 1) / st))).
Proof.
  induction fuel as [|f IH]; intros i L st HS Hf.
  - rewrite ceil_div_nonpos by lia; reflexivity.
  - simpl. destruct (Z.ltb_spec i L) as [Hi|Hi].
    + replace ((0 <? st) && true || (st <? 0) && (L <? i))%bool with true
        by (destruct (Z.ltb_spec 0 st); [reflexivity | lia]).
      rewrite IH by lia.
      replace (L - i + st - 1) with ((L - (i + st) + st - 1) + 1 * st) by lia.
      rewrite Z.div_add by lia.
      assert (0 <= (L - (i + st) + st - 1) / st) by (apply Z.div_pos; lia).
      replace (Z.to_nat ((L - (i + st) + st - 1) / st + 1))
        with (S (Z.to_nat ((L - (i + st) + st - 1) / st))) by lia.
      simpl; f_equal; [lia|].
      rewrite <- seq_shift, map_map.
      apply map_ext; intros k; lia.
    + replace ((0 <? st) && false || (st <? 0) && (L <? i))%bool with false
        by (destruct (Z.ltb_spec st 0); [lia | rewrite andb_false_r; reflexivity]).
      rewrite ceil_div_nonpos by lia; reflexivity.
Qed.

Lemma py_range_pos : forall L st, 0 <= L -> 0 < st ->
  py_range 0 L st = Ok (map (fun k => Z.of_nat k * st) (seq 0 (Z.to_nat ((L + st - 1) / st)))).
Proof.
  intros L st HL HS; unfold py_range.
  replace (st =? 0) with false by (symmetry; apply Z.eqb_neq; lia).
  rewrite range_go_spec by lia.
  replace (L - 0) with L by lia; reflexivity.
Qed.

(** ** The items loop *)

Definition p0 : point := mkpoint zero zero zero.

Lemma py_index_in : forall (l : list point) i,
  0 <= i < Z.of_nat (List.length l) -> py_index l i = Ok (nth (Z.to_nat i) l p0).
Proof.
  intros l i Hi; unfold py_index.
  replace (i <? 0) with false by (symmetry; apply Z.ltb_ge; lia).
  replace ((0 <=? i) && (i <? Z.of_nat (List.length l)))%bool with true
    by (symmetry; apply andb_true_iff; split; [apply Z.leb_le | apply Z.ltb_lt]; lia).
  rewrite (nth_error_nth' l p0) by lia; reflexivity.
Qed.

Lemma items_loop_spec : forall coords d r idx acc j,
  Forall (fun i => 0 <= i < Z.of_nat (List.length coords)) idx ->
  items_loop coords d r idx acc j
  = Ok (acc ++ numbered_items (map (fun i => nth (Z.to_nat i) coords p0) idx) j d r).
Proof.
  intros coords d r idx; induction idx as [|i idx IH]; intros acc j Hidx.
  - simpl; rewrite app_nil_r; reflexivity.
  - inversion Hidx as [|? ? Hi Hrest]; subst.
    simpl; rewrite py_index_in by exact Hi; simpl.
    rewrite IH by exact Hrest; rewrite <- app_assoc; reflexivity.
Qed.

Lemma numbered_items_length : forall ps j d r,
  List.length (numbered_items ps j d r) = List.length ps.
Proof.
  induction ps as [|p ps IH]; intros j d r; simpl; [reflexivity|].
  rewrite IH; reflexivity.
Qed.

Lemma numbered_items_nth_error : forall ps j d r k,
  nth_error (numbered_items ps j d r) k
  = option_map (fun p => make_item p (j + Z.of_nat k) d r) (nth_error ps k).
Proof.
  induction ps as [|p ps IH]; intros j d r [|k]; simpl; try reflexivity.
  - rewrite Z.add_0_r; reflexivity.
  - rewrite IH; destruct (nth_error ps k); simpl; [|reflexivity].
    do 2 f_equal; lia.
Qed.

Lemma numbered_items_ids : forall ps n d r,
  map doJumpId (numbered_items ps (Z.of_nat n) d r) = map Z.of_nat (seq n (List.length ps)).
Proof.
  induction ps as [|p ps IH]; intros n d r; simpl; [reflexivity|].
  replace (Z.of_nat n + 1) with (Z.of_nat (S n)) by lia.
  rewrite IH; reflexivity.
Qed.

(** ** Stride arithmetic: [k < ceil(L / st)] iff [k * st < L] *)

Lemma stride_index_lt : forall L st k, 0 < st ->
  (k < Z.to_nat ((L + st - 1) / st))%nat <-> Z.of_nat k * st < L.
Proof.
  intros L st k Hst; split; intros Hk.
  - assert (st * ((L + st - 1) / st) <= L + st - 1) by (apply Z.mul_div_le; lia).
    assert (Z.of_nat k + 1 <= (L + st - 1) / st) by lia.
    nia.
  - assert (Z.of_nat k + 1 <= (L + st - 1) / st)
      by (apply Z.div_le_lower_bound; lia).
    lia.
Qed.

(** The points of [coords] at [0, st, 2 st, ...] below its length. *)
Definition strided (coords : list point) (st : Z) : list point :=
  map (fun k => nth (Z.to_nat (Z.of_nat k * st)) coords p0)
      (seq 0 (Z.to_nat ((Z.of_nat (List.length coords) + st - 1) / st))).

Lemma create_plan_json_pos : forall c0 rest st d r, 1 <= st ->
  create_plan_json (c0 :: rest) st d r
  = Ok (Some (make_plan (numbered_items (strided (c0 :: rest) st) 1 d r)
                        [lat c0; lon c0; d])).
Proof.
  intros c0 rest st d r Hst.
  assert (HL : 1 <= Z.of_nat (List.length (c0 :: rest))) by (simpl; lia).
  unfold create_plan_json; cbv beta iota zeta.
  rewrite py_range_pos by lia; cbn [py_bind].
  rewrite items_loop_spec.
  - rewrite map_map; cbn [app]; unfold strided.
    assert (Hc : (1 <= Z.to_nat ((Z.of_nat (List.length (c0 :: rest)) + st - 1) / st))%nat).
    { apply (stride_index_lt _ _ 0); simpl; lia. }
    destruct (Z.to_nat ((Z.of_nat (List.length (c0 :: rest)) + st - 1) / st)) as [|n];
      [lia | reflexivity].
  - apply Forall_forall; intros i Hi; apply in_map_iff in Hi.
    destruct Hi as (k & <- & Hk); apply in_seq in Hk.
    split; [lia|]. apply stride_index_lt; lia.
Qed.

(** A step below 1 never yields a plan: 0 makes [range] raise, a negative
    step gives an empty range. *)
Lemma create_plan_json_nonpos : forall coords st d r pl, st < 1 ->
  create_plan_json coords st d r <> Ok (Some pl).
Proof.
  intros [|c0 rest] st d r pl Hst; [discriminate|].
  unfold create_plan_json, py_range; cbv beta iota zeta.
  destruct (Z.eqb_spec st 0) as [E|E]; [discriminate|].
  cbn [py_bind].
  destruct (Z.to_nat (Z.abs (Z.of_nat (List.length (c0 :: rest)) - 0))) as [|f];
    cbn [range_go items_loop py_bind]; [discriminate|].
  replace (0 <? st) with false by (symmetry; apply Z.ltb_ge; lia).
  replace (Z.of_nat (List.length (c0 :: rest)) <? 0) with false
    by (symmetry; apply Z.ltb_ge; lia).
  rewrite andb_false_r; cbn; discriminate.
Qed.

Lemma strided_length : forall coords st,
  List.length (strided coords st)
  = Z.to_nat ((Z.of_nat (List.length coords) + st - 1) / st).
Proof. intros; unfold strided; rewrite length_map, length_seq; reflexivity. Qed.

(** The [k]-th item of a plan built with step [st] is the item of the point
    at index [k * st], numbered [k + 1]. *)
Lemma strided_items_nth : forall coords st d r k it, 1 <= st ->
  nth_error (numbered_items (strided coords st) 1 d r) k = Some it ->
  exists p, nth_error coords (Z.to_nat (Z.of_nat k * st)) = Some p
            /\ it = make_item p (1 + Z.of_nat k) d r.
Proof.
  intros coords st d r k it Hst H.
  rewrite numbered_items_nth_error in H; unfold strided in H.
  rewrite nth_error_map, nth_error_seq in H.
  destruct (Nat.ltb_spec k (Z.to_nat ((Z.of_nat (List.length coords) + st - 1) / st)))
    as [Hk|Hk]; [|discriminate].
  simpl in H; injection H as <-.
  apply stride_index_lt in Hk; [|lia].
  exists (nth (Z.to_nat (Z.of_nat k * st)) coords p0); split; [|reflexivity].
  apply nth_error_nth'; lia.
Qed.

(** ** create_plan_json *)

(** C1: for a non-empty point list and any strides [st1], [st2] >= 1, both
    plans are built, the home position is [[lat, lon]] of the first point
    with the default altitude, and it is the same for both strides. *)
Theorem create_plan_json_home : forall c0 rest st1 st2 d r,
  1 <= st1 -> 1 <= st2 ->
  exists pl1 pl2,
    create_plan_json (c0 :: rest) st1 d r = Ok (Some pl1)
    /\ create_plan_json (c0 :: rest) st2 d r = Ok (Some pl2)
    /\ plannedHomePosition (plan_mission pl1) = [lat c0; lon c0; d]
    /\ plannedHomePosition (plan_mission pl2) = plannedHomePosition (plan_mission pl1).
Proof.
  intros c0 rest st1 st2 d r H1 H2.
  rewrite (create_plan_json_pos c0 rest st1 d r H1),
    (create_plan_json_pos c0 rest st2 d r H2).
  do 2 eexists; repeat split.
Qed.

Lemma create_plan_json_home_witness :
  exists pl1 pl2,
    create_plan_json [mkpoint one zero one; mkpoint zero one zero] 1 zero one = Ok (Some pl1)
    /\ create_plan_json [mkpoint one zero one; mkpoint zero one zero] 2 zero one = Ok (Some pl2)
    /\ plannedHomePosition (plan_mission pl1) = [one; zero; zero]
    /\ plannedHomePosition (plan_mission pl2) = plannedHomePosition (plan_mission pl1).
Proof. apply (create_plan_json_home (mkpoint one zero one)); lia. Defined.

(** C3: for a list of length [L >= 1] and a step [st >= 1], the plan has
    [ceil(L / st)] items, the [k]-th one exists iff [k * st < L], and it
    carries the latitude and longitude of the point at index [k * st]. *)
Theorem create_plan_json_stride : forall coords st d r,
  1 <= st -> coords <> [] ->
  exists pl, create_plan_json coords st d r = Ok (Some pl)
  /\ let its := items (plan_mission pl) in
     let L := Z.of_nat (List.length coords) in
     List.length its = Z.to_nat ((L + st - 1) / st)
     /\ (forall k, (k < List.length its)%nat <-> Z.of_nat k * st < L)
     /\ (forall k it, nth_error its k = Some it ->
           exists p, nth_error coords (Z.to_nat (Z.of_nat k * st)) = Some p
             /\ nth_error (params it) 4 = Some (Some (lat p))
             /\ nth_error (params it) 5 = Some (Some (lon p))).
Proof.
  intros [|c0 rest] st d r Hst Hne; [congruence|].
  rewrite create_plan_json_pos by exact Hst.
  eexists; split; [reflexivity|]; cbn [items plan_mission make_plan].
  rewrite numbered_items_length, strided_length.
  split; [reflexivity|split].
  - intros k; apply stride_index_lt; lia.
  - intros k it Hit.
    destruct (strided_items_nth _ _ _ _ _ _ Hst Hit) as (p & Hp & ->).
    exists p; repeat split; assumption.
Qed.

Lemma create_plan_json_stride_witness :
  exists pl, create_plan_json [mkpoint one zero one; mkpoint zero one zero; p0] 2 zero one
             = Ok (Some pl)
  /\ let its := items (plan_mission pl) in
     let L := Z.of_nat 3 in
     List.length its = Z.to_nat ((L + 2 - 1) / 2)
     /\ (forall k, (k < List.length its)%nat <-> Z.of_nat k * 2 < L)
     /\ (forall k it, nth_error its k = Some it ->
           exists p, nth_error [mkpoint one zero one; mkpoint zero one zero; p0]
                       (Z.to_nat (Z.of_nat k * 2)) = Some p
             /\ nth_error (params it) 4 = Some (Some (lat p))
             /\ nth_error (params it) 5 = Some (Some (lon p))).
Proof. apply create_plan_json_stride; [lia | discriminate]. Defined.

(** C4: in every plan built by [create_plan_json], the [doJumpId]s are
    [1, 2, ..., count] in order; every item has [Altitude] and 7th parameter
    equal to the default altitude and a null 4th parameter (desired yaw);
    the 5th and 6th parameters of the [k]-th item are the latitude and
    longitude of the selected point at index [k * step]. *)
Theorem create_plan_json_items : forall coords st d r pl,
  create_plan_json coords st d r = Ok (Some pl) ->
  let its := items (plan_mission pl) in
  map doJumpId its = map Z.of_nat (seq 1 (List.length its))
  /\ Forall (fun it => Altitude it = d
                       /\ nth_error (params it) 6 = Some (Some d)
                       /\ nth_error (params it) 3 = Some None) its
  /\ (forall k it, nth_error its k = Some it ->
        exists p, nth_error coords (Z.to_nat (Z.of_nat k * st)) = Some p
          /\ nth_error (params it) 4 = Some (Some (lat p))
          /\ nth_error (params it) 5 = Some (Some (lon p))).
Proof.
  intros coords st d r pl H its.
  destruct (Z.ltb_spec st 1) as [Hst|Hst].
  { exfalso; exact (create_plan_json_nonpos coords st d r pl Hst H). }
  destruct coords as [|c0 rest]; [discriminate|].
  rewrite create_plan_json_pos in H by lia.
  injection H as <-; subst its; cbn [items plan_mission make_plan].
  split; [|split].
  - rewrite numbered_items_length. apply (numbered_items_ids _ 1).
  - apply Forall_forall; intros it Hit.
    apply In_nth_error in Hit; destruct Hit as [k Hk].
    destruct (strided_items_nth _ _ _ _ _ _ Hst Hk) as (p & _ & ->).
    repeat split.
  - intros k it Hit.
    destruct (strided_items_nth _ _ _ _ _ _ Hst Hit) as (p & Hp & ->).
    exists p; repeat split; assumption.
Qed.

Lemma create_plan_json_items_witness :
  create_plan_json [mkpoint one zero one; mkpoint zero one zero] 1 zero one
    = Ok (Some (make_plan
                  [make_item (mkpoint one zero one) 1 zero one;
                   make_item (mkpoint zero one zero) 2 zero one]
                  [one; zero; zero]))
  /\ let its := [make_item (mkpoint one zero one) 1 zero one;
                 make_item (mkpoint zero one zero) 2 zero one] in
     map doJumpId its = map Z.of_nat (seq 1 (List.length its))
     /\ Forall (fun it => Altitude it = zero
                          /\ nth_error (params it) 6 = Some (Some zero)
                          /\ nth_error (params it) 3 = Some None) its
     /\ (forall k it, nth_error its k = Some it ->
           exists p, nth_error [mkpoint one zero one; mkpoint zero one zero]
                       (Z.to_nat (Z.of_nat k * 1)) = Some p
             /\ nth_error (params it) 4 = Some (Some (lat p))
             /\ nth_error (params it) 5 = Some (Some (lon p))).
Proof.
  split; [reflexivity|].
  exact (create_plan_json_items [mkpoint one zero one; mkpoint zero one zero] 1 zero one
           _ eq_refl).
Defined.

(** C5: for a step >= 1, [create_plan_json] returns [None] iff the point
    list is empty, and a non-empty list gives a plan with at least one item,
    so the [if not items] branch is never taken. *)
Theorem create_plan_json_none_iff_empty : forall coords st d r, 1 <= st ->
  (create_plan_json coords st d r = Ok None <-> coords = [])
  /\ (coords <> [] ->
      exists pl, create_plan_json coords st d r = Ok (Some pl)
                 /\ items (plan_mission pl) <> []).
Proof.
  intros [|c0 rest] st d r Hst.
  - split; [split; reflexivity | intros H; congruence].
  - rewrite create_plan_json_pos by exact Hst.
    split; [split; discriminate|intros _].
    eexists; split; [reflexivity|]; cbn [items plan_mission make_plan].
    intros E; apply (f_equal (@List.length item)) in E.
    rewrite numbered_items_length, strided_length in E.
    change (@List.length item []) with 0%nat in E.
    assert (HL : 0 < Z.of_nat (List.length (c0 :: rest))) by (simpl; lia).
    pose proof (proj2 (stride_index_lt (Z.of_nat (List.length (c0 :: rest))) st 0
                         ltac:(lia)) ltac:(lia)).
    lia.
Qed.

Lemma create_plan_json_none_iff_empty_witness :
  (create_plan_json [p0] 3 zero one = Ok None <-> [p0] = [])
  /\ ([p0] <> [] ->
      exists pl, create_plan_json [p0] 3 zero one = Ok (Some pl)
                 /\ items (plan_mission pl) <> []).
Proof. apply create_plan_json_none_iff_empty; lia. Defined.

(** ** parse_gpx: skipping malformed track points *)

Section ParseProofs.

Variable py_float : string -> option flt.

Lemma ele_alt_float : forall ns t,
  ele_alt py_float ns t
  = match ele_float py_float ns t with Some a => a | None => zero end.
Proof.
  intros ns t; unfold ele_alt, ele_float.
  destruct (find_child (nstag ns "ele") t) as [e|]; [|reflexivity].
  destruct (el_text e) as [x|]; [|reflexivity].
  destruct (py_float x); reflexivity.
Qed.

Definition point_of (ns : option string) (t : element) (p : point) : Prop :=
  attr_float py_float "lat" t = Some (lat p)
  /\ attr_float py_float "lon" t = Some (lon p)
  /\ alt p = match ele_float py_float ns t with Some a => a | None => zero end.

Lemma trkpt_loop_spec : forall ns ts acc,
  exists pts, trkpt_loop py_float ns ts acc = Ok (acc ++ pts)
  /\ Forall2 (point_of ns) (filter (latlon_valid py_float) ts) pts.
Proof.
  intros ns ts; induction ts as [|t ts IH]; intros acc.
  - exists []; split; [rewrite app_nil_r; reflexivity | constructor].
  - cbn [trkpt_loop filter].
    unfold parse_trkpt, float_attr, latlon_valid, attr_float.
    destruct (attr_lookup "lat" (el_attrib t)) as [sla|] eqn:Ela; cbn [py_bind];
      [destruct (py_float sla) as [la|] eqn:Epa; cbn [py_bind]|];
      [destruct (attr_lookup "lon" (el_attrib t)) as [slo|] eqn:Elo; cbn [py_bind];
        [destruct (py_float slo) as [lo|] eqn:Epo; cbn [py_bind]|] | |];
      try apply IH.
    destruct (IH (acc ++ [mkpoint la lo (ele_alt py_float ns t)])) as (pts & Hl & Hf).
    exists (mkpoint la lo (ele_alt py_float ns t) :: pts); split.
    + rewrite Hl, <- app_assoc; reflexivity.
    + constructor; [|exact Hf].
      unfold point_of, attr_float; cbn [lat lon alt].
      rewrite Ela, Epa, Elo, Epo, ele_alt_float; repeat split.
Qed.

End ParseProofs.

(** C6: on a parsed document, [parse_gpx] returns exactly one point per
    track-point element whose [lat] and [lon] attributes are present and
    numeric, in document order; elements missing either attribute or holding
    a non-numeric one are skipped without stopping the parse; a kept point
    has the altitude of its [ele] child when that text is numeric and [0.0]
    when the child is absent, has no text, or its text is not numeric. *)
Theorem parse_gpx_point_resilience : forall py_float root,
  let ns := detect_ns (el_tag root) in
  let tps := iter_tag (nstag ns "trkpt") root in
  exists pts, parse_gpx py_float (ETParsed root) = Ok (Some pts)
  /\ List.length pts = List.length (filter (latlon_valid py_float) tps)
  /\ Forall2 (fun t p =>
                attr_float py_float "lat" t = Some (lat p)
                /\ attr_float py_float "lon" t = Some (lon p)
                /\ alt p = match ele_float py_float ns t with
                           | Some a => a
                           | None => zero
                           end)
             (filter (latlon_valid py_float) tps) pts.
Proof.
  intros py_float root ns tps.
  destruct (trkpt_loop_spec py_float ns tps []) as (pts & Hl & Hf).
  exists pts; split; [|split].
  - unfold parse_gpx; fold ns; fold tps; rewrite Hl; reflexivity.
  - symmetry; exact (Forall2_length Hf).
  - exact Hf.
Qed.

(** ** parse_gpx: namespaced documents *)

Lemma string_eqb_app_cancel : forall p a b,
  String.eqb (p ++ a)%string (p ++ b)%string = String.eqb a b.
Proof.
  induction p as [|c p IH]; intros a b; [reflexivity|].
  cbn [String.append String.eqb]; rewrite Ascii.eqb_refl; exact (IH a b).
Qed.

Lemma ns_tag_eqb : forall u a b,
  String.eqb ("{" ++ u ++ "}" ++ a)%string ("{" ++ u ++ "}" ++ b)%string = String.eqb a b.
Proof. intros u a b; rewrite !string_eqb_app_cancel; reflexivity. Qed.

Lemma iter_all_El : forall t a x ch,
  iter_all (El t a x ch) = El t a x ch :: flat_map iter_all ch.
Proof.
  reflexivity.
Qed.

Lemma iter_all_ns : forall u e,
  iter_all (ns_elem u e) = map (ns_elem u) (iter_all e).
Proof.
  intros u e; induction e as [t a x ch Hch] using element_ind'.
  cbn [ns_elem]; rewrite !iter_all_El; cbn [map]; f_equal.
  induction Hch as [|c ch Hc _ IH]; [reflexivity|].
  cbn [map flat_map]; rewrite Hc, IH, map_app; reflexivity.
Qed.

Lemma filter_map_comm : forall {A B} (f : B -> bool) (g : A -> B) l,
  filter f (map g l) = map g (filter (fun x => f (g x)) l).
Proof.
  intros A B f g l; induction l as [|x l IH]; [reflexivity|].
  cbn [map filter]; destruct (f (g x)); cbn [map]; rewrite IH; reflexivity.
Qed.

Lemma el_tag_ns : forall u e,
  el_tag (ns_elem u e) = ("{" ++ u ++ "}" ++ el_tag e)%string.
Proof. intros u [t a x ch]; reflexivity. Qed.

Lemma iter_tag_ns : forall u tag e,
  iter_tag ("{" ++ u ++ "}" ++ tag)%string (ns_elem u e)
  = map (ns_elem u) (iter_tag tag e).
Proof.
  intros u tag e; unfold iter_tag.
  rewrite iter_all_ns, filter_map_comm; f_equal.
  apply filter_ext; intros c; rewrite el_tag_ns.
  apply ns_tag_eqb.
Qed.

Lemma find_child_ns : forall u tag t,
  find_child ("{" ++ u ++ "}" ++ tag)%string (ns_elem u t)
  = option_map (ns_elem u) (find_child tag t).
Proof.
  intros u tag [t a x ch]; unfold find_child; cbn [ns_elem el_children].
  induction ch as [|c ch IH]; [reflexivity|].
  cbn [map find]; rewrite el_tag_ns.
  rewrite ns_tag_eqb.
  destruct (String.eqb (el_tag c) tag); [reflexivity | exact IH].
Qed.

Lemma nstag_some : forall u tag, u <> ""%string ->
  nstag (Some u) tag = ("{" ++ u ++ "}" ++ tag)%string.
Proof.
  intros u tag Hu; unfold nstag.
  destruct (String.eqb_spec u "") as [E|E]; [contradiction | reflexivity].
Qed.

Lemma parse_trkpt_ns : forall py_float u t, u <> ""%string ->
  parse_trkpt py_float (Some u) (ns_elem u t) = parse_trkpt py_float None t.
Proof.
  intros py_float u t Hu.
  assert (Ha : el_attrib (ns_elem u t) = el_attrib t) by (destruct t; reflexivity).
  assert (He : ele_alt py_float (Some u) (ns_elem u t) = ele_alt py_float None t).
  { unfold ele_alt; rewrite nstag_some by exact Hu; rewrite find_child_ns.
    cbn [nstag]; destruct (find_child "ele" t) as [[? ? ? ?]|]; reflexivity. }
  unfold parse_trkpt, float_attr; rewrite Ha, He; reflexivity.
Qed.

Lemma trkpt_loop_ns : forall py_float u ts acc, u <> ""%string ->
  trkpt_loop py_float (Some u) (map (ns_elem u) ts) acc = trkpt_loop py_float None ts acc.
Proof.
  intros py_float u ts; induction ts as [|t ts IH]; intros acc Hu; [reflexivity|].
  cbn [map trkpt_loop]; rewrite parse_trkpt_ns by exact Hu.
  destruct (parse_trkpt py_float None t) as [p|[]]; auto.
Qed.

Lemma contains_gpx_suffix : forall a,
  str_contains "}gpx" (a ++ "}gpx")%string = true.
Proof.
  induction a as [|c a IH]; [reflexivity|].
  cbn [String.append str_contains]; rewrite IH, orb_true_r; reflexivity.
Qed.

Lemma no_braces_cons : forall c u,
  no_braces (String c u) = true ->
  c <> "{"%char /\ c <> "}"%char /\ no_braces u = true.
Proof.
  intros c u H; unfold no_braces in H; cbn [list_ascii_of_string forallb] in H.
  apply andb_true_iff in H as [Hc Hu].
  apply andb_true_iff in Hc as [H1 H2]; apply negb_true_iff in H1, H2.
  repeat split; [intros ->; discriminate | intros ->; discriminate | exact Hu].
Qed.

Lemma split_first_no_close : forall u rest, no_braces u = true ->
  split_first "}"%char (u ++ String "}" rest)%string = u.
Proof.
  induction u as [|c u IH]; intros rest H; [reflexivity|].
  apply no_braces_cons in H as (_ & Hc & Hu).
  cbn [String.append split_first].
  destruct (Ascii.eqb_spec c "}"%char) as [E|E]; [contradiction|].
  rewrite IH by exact Hu; reflexivity.
Qed.

Lemma rstrip_no_open : forall u, no_braces u = true -> rstrip "{"%char u = u.
Proof.
  induction u as [|c u IH]; intros H; [reflexivity|].
  apply no_braces_cons in H as (Hc & _ & Hu).
  cbn [rstrip]; rewrite IH by exact Hu.
  destruct (Ascii.eqb_spec c "{"%char) as [E|E]; [contradiction|].
  rewrite andb_false_r; reflexivity.
Qed.

Lemma lstrip_no_open : forall u, no_braces u = true -> lstrip "{"%char u = u.
Proof.
  intros [|c u] H; [reflexivity|].
  apply no_braces_cons in H as (Hc & _ & _).
  cbn [lstrip]; destruct (Ascii.eqb_spec c "{"%char) as [E|E];
    [contradiction | reflexivity].
Qed.

(** The namespace found on a root ["{u}gpx"] is [u] when [u] has no brace. *)
Lemma detect_ns_gpx : forall u, no_braces u = true ->
  detect_ns ("{" ++ u ++ "}" ++ "gpx")%string = Some u.
Proof.
  intros u H; unfold detect_ns.
  replace (String.prefix "{" ("{" ++ u ++ "}" ++ "gpx")) with true
    by (cbn [String.append String.prefix];
        destruct (ascii_dec "{" "{") as [_|n]; [|now elim n];
        match goal with |- _ = String.prefix "" ?s => destruct s end;
        reflexivity).
  replace ("{" ++ u ++ "}" ++ "gpx")%string with ("{" ++ (u ++ "}gpx"))%string
    by reflexivity.
  replace (str_contains "}gpx" ("{" ++ (u ++ "}gpx"))) with true
    by (symmetry; exact (contains_gpx_suffix ("{" ++ u))).
  cbn [andb].
  assert (Hs : split_first "}"%char ("{" ++ (u ++ "}gpx"))%string = String "{" u).
  { change ("{" ++ (u ++ "}gpx"))%string with (String "{" (u ++ String "}" "gpx")).
    cbn [split_first]; rewrite split_first_no_close by exact H; reflexivity. }
  rewrite Hs; unfold strip.
  change (lstrip "{"%char (String "{" u)) with (lstrip "{"%char u).
  rewrite lstrip_no_open, rstrip_no_open by exact H; reflexivity.
Qed.

(** C7 as stated fails: the namespace is only looked for on a root whose
    tag contains ["}gpx"]. With a namespaced [trk] root, the point of the
    unnamespaced document is not found. *)
Lemma parse_gpx_namespace_non_gpx_root :
  let doc := El "trk" [] None [El "trkpt" [("lat", "1"); ("lon", "2")] None []] in
  parse_gpx dec_float (ETParsed doc) = Ok (Some [mkpoint one (float_of_Z 2) zero])
  /\ parse_gpx dec_float (ETParsed (ns_elem "u" doc)) = Ok (Some []).
Proof. split; vm_compute; reflexivity. Qed.

(** C7 (amended): for a [gpx] root, putting the whole document in a
    namespace [u] (non-empty, with no brace) does not change the points
    [parse_gpx] returns. *)
Theorem parse_gpx_namespace_invariant : forall py_float u e,
  u <> ""%string -> no_braces u = true -> el_tag e = "gpx"%string ->
  parse_gpx py_float (ETParsed (ns_elem u e)) = parse_gpx py_float (ETParsed e).
Proof.
  intros py_float u e Hu Hb Ht.
  unfold parse_gpx; rewrite el_tag_ns, Ht, detect_ns_gpx by exact Hb.
  replace (detect_ns "gpx") with (@None string) by reflexivity.
  rewrite nstag_some by exact Hu; cbn [nstag].
  rewrite iter_tag_ns, trkpt_loop_ns by exact Hu; reflexivity.
Qed.

Lemma parse_gpx_namespace_invariant_witness :
  ("u" <> ""%string /\ no_braces "u" = true
   /\ el_tag (El "gpx" [] None [El "trkpt" [("lat", "1"); ("lon", "2")] None []])
      = "gpx"%string)
  /\ parse_gpx dec_float
       (ETParsed (ns_elem "u" (El "gpx" [] None
                                 [El "trkpt" [("lat", "1"); ("lon", "2")] None []])))
     = parse_gpx dec_float
         (ETParsed (El "gpx" [] None [El "trkpt" [("lat", "1"); ("lon", "2")] None []])).
Proof.
  split; [split; [discriminate | split; reflexivity]|].
  apply parse_gpx_namespace_invariant; [discriminate | reflexivity | reflexivity].
Defined.

(** ** main *)

(** C9: an input file that exists but cannot be read (permission denied, a
    directory) makes [ET.parse] raise an [OSError] other than
    [FileNotFoundError]; [parse_gpx] does not catch it, nor does [main], so
    the run ends with status 1 (the bad-arguments status), not 2. *)
Lemma main_unreadable_input_exit_1 :
  main dec_Z dec_float
    ["gps_parser.py"; "track.gpx"; "1"; "0"; "0"; "1"; "1"; "out.plan"]
    (fun _ => ETOtherOSError) (fun _ => true)
  = exit_with 1.
Proof. vm_compute; reflexivity. Qed.

(** The same arguments on a missing file do give status 2. *)
Lemma main_missing_input_exit_2 :
  main dec_Z dec_float
    ["gps_parser.py"; "track.gpx"; "1"; "0"; "0"; "1"; "1"; "out.plan"]
    (fun _ => ETFileNotFound) (fun _ => true)
  = exit_with 2.
Proof. vm_compute; reflexivity. Qed.

(** * Further properties of the code *)

(** ** filter_coords_by_bbox *)

Lemma filter_idem : forall {A} (f : A -> bool) l, filter f (filter f l) = filter f l.
Proof.
  intros A f l; induction l as [|x l IH]; [reflexivity|].
  cbn [filter]; destruct (f x) eqn:E; cbn [filter]; rewrite ?E, IH; reflexivity.
Qed.

(** Filtering the filtered points again with the same corners keeps them all. *)
Theorem filter_coords_by_bbox_idempotent : forall coords lat1 lon1 lat2 lon2,
  filter_coords_by_bbox (Some (filter_coords_by_bbox coords lat1 lon1 lat2 lon2))
    lat1 lon1 lat2 lon2
  = filter_coords_by_bbox coords lat1 lon1 lat2 lon2.
Proof.
  intros [pts|] lat1 lon1 lat2 lon2; [|reflexivity].
  cbn [filter_coords_by_bbox]; rewrite !bbox_loop_filter; cbn [app].
  apply filter_idem.
Qed.

(** The filter of a concatenation is the concatenation of the filters. *)
Theorem filter_coords_by_bbox_app : forall pts1 pts2 lat1 lon1 lat2 lon2,
  filter_coords_by_bbox (Some (pts1 ++ pts2)) lat1 lon1 lat2 lon2
  = filter_coords_by_bbox (Some pts1) lat1 lon1 lat2 lon2
    ++ filter_coords_by_bbox (Some pts2) lat1 lon1 lat2 lon2.
Proof.
  intros; cbn [filter_coords_by_bbox]; rewrite !bbox_loop_filter; cbn [app].
  apply filter_app.
Qed.

Lemma py_le_nan_r : forall x, py_le x S754_nan = false.
Proof. intros []; reflexivity. Qed.

Lemma py_le_nan_l : forall x, py_le S754_nan x = false.
Proof. intros []; reflexivity. Qed.

(** Whatever the corners, a point whose latitude or longitude is NaN is
    never kept. *)
Theorem filter_coords_by_bbox_drops_nan : forall coords lat1 lon1 lat2 lon2 p,
  In p (filter_coords_by_bbox coords lat1 lon1 lat2 lon2) ->
  is_nan (lat p) = false /\ is_nan (lon p) = false.
Proof.
  intros [pts|] lat1 lon1 lat2 lon2 p H; [|destruct H].
  cbn [filter_coords_by_bbox] in H; rewrite bbox_loop_filter in H; cbn [app] in H.
  apply filter_In in H as [_ H]; unfold in_bbox in H.
  destruct (lat p) eqn:Ea; destruct (lon p) eqn:Eo; split; try reflexivity;
    rewrite ?py_le_nan_r, ?py_le_nan_l, ?andb_false_r in H; discriminate.
Qed.

Lemma filter_coords_by_bbox_drops_nan_witness :
  In (mkpoint one two zero)
     (filter_coords_by_bbox (Some [mkpoint one two zero; mkpoint S754_nan two zero])
        zero zero (float_of_Z 5) (float_of_Z 5))
  /\ is_nan one = false /\ is_nan two = false.
Proof.
  assert (H : In (mkpoint one two zero)
                (filter_coords_by_bbox (Some [mkpoint one two zero; mkpoint S754_nan two zero])
                   zero zero (float_of_Z 5) (float_of_Z 5)))
    by (vm_compute; left; reflexivity).
  split; [exact H | apply (filter_coords_by_bbox_drops_nan _ _ _ _ _ _ H)].
Defined.

Lemma py_le_both_eqb : forall a x, py_le a x && py_le x a = SFeqb x a.
Proof.
  intros a x; unfold py_le, SFleb, SFeqb; rewrite (SFcompare_swap x a).
  destruct (SFcompare x a) as [[]|]; reflexivity.
Qed.

(** A box whose two corners coincide keeps exactly the points that compare
    equal ([==]) to that corner on both axes, in order. *)
Theorem filter_coords_by_bbox_point_box : forall pts a o,
  filter_coords_by_bbox (Some pts) a o a o
  = filter (fun p => SFeqb (lat p) a && SFeqb (lon p) o) pts.
Proof.
  intros pts a o; cbn [filter_coords_by_bbox]; rewrite bbox_loop_filter; cbn [app].
  replace (py_min a a) with a by (unfold py_min; destruct (py_lt a a); reflexivity).
  replace (py_max a a) with a by (unfold py_max; destruct (py_lt a a); reflexivity).
  replace (py_min o o) with o by (unfold py_min; destruct (py_lt o o); reflexivity).
  replace (py_max o o) with o by (unfold py_max; destruct (py_lt o o); reflexivity).
  apply filter_ext; intros p; unfold in_bbox; rewrite !py_le_both_eqb; reflexivity.
Qed.

(** ** create_plan_json: steps and schema *)


(** A negative step gives an empty range, hence no item and [None]. *)
Theorem create_plan_json_step_negative : forall coords st d r,
  st < 0 -> create_plan_json coords st d r = Ok None.
Proof.
  intros [|c0 rest] st d r Hst; [reflexivity|].
  unfold create_plan_json, py_range; cbv beta iota zeta.
  replace (st =? 0) with false by (symmetry; apply Z.eqb_neq; lia).
  cbn [py_bind].
  destruct (Z.to_nat (Z.abs (Z.of_nat (List.length (c0 :: rest)) - 0))) as [|f];
    cbn [range_go items_loop py_bind]; [reflexivity|].
  replace (0 <? st) with false by (symmetry; apply Z.ltb_ge; lia).
  replace (Z.of_nat (List.length (c0 :: rest)) <? 0) with false
    by (symmetry; apply Z.ltb_ge; lia).
  rewrite andb_false_r; reflexivity.
Qed.

Lemma create_plan_json_step_negative_witness :
  -3 < 0 /\ create_plan_json [p0; p0] (-3) zero one = Ok None.
Proof. split; [lia | apply create_plan_json_step_negative; lia]. Defined.

Lemma strided_one : forall coords, strided coords 1 = coords.
Proof.
  intros coords; unfold strided.
  replace ((Z.of_nat (List.length coords) + 1 - 1) / 1) with (Z.of_nat (List.length coords))
    by (rewrite Z.div_1_r; lia).
  rewrite Nat2Z.id.
  apply nth_error_ext; intros n.
  rewrite nth_error_map, nth_error_seq.
  destruct (Nat.ltb_spec n (List.length coords)) as [Hn|Hn]; cbn [option_map].
  - rewrite (nth_error_nth' coords p0 Hn); do 2 f_equal; lia.
  - symmetry; apply nth_error_None; exact Hn.
Qed.

(** With step 1 every point becomes a waypoint: the [k]-th point gives the
    [k]-th item, numbered [k + 1]. *)
Theorem create_plan_json_step_one : forall coords d r, coords <> [] ->
  exists pl, create_plan_json coords 1 d r = Ok (Some pl)
  /\ List.length (items (plan_mission pl)) = List.length coords
  /\ (forall k p, nth_error coords k = Some p ->
        nth_error (items (plan_mission pl)) k = Some (make_item p (Z.of_nat k + 1) d r)).
Proof.
  intros [|c0 rest] d r Hne; [congruence|].
  rewrite create_plan_json_pos by lia.
  eexists; split; [reflexivity|]; cbn [items plan_mission make_plan].
  rewrite strided_one, numbered_items_length; split; [reflexivity|].
  intros k p Hp; rewrite numbered_items_nth_error, Hp; cbn [option_map].
  do 2 f_equal; lia.
Qed.

Lemma create_plan_json_step_one_witness :
  exists pl, create_plan_json [p0; mkpoint one one one] 1 zero one = Ok (Some pl)
  /\ List.length (items (plan_mission pl)) = List.length [p0; mkpoint one one one]
  /\ (forall k p, nth_error [p0; mkpoint one one one] k = Some p ->
        nth_error (items (plan_mission pl)) k = Some (make_item p (Z.of_nat k + 1) zero one)).
Proof. apply create_plan_json_step_one; discriminate. Defined.

(** A step at least the number of points keeps only the first point: one
    waypoint, numbered 1. *)
Theorem create_plan_json_step_large : forall c0 rest st d r,
  Z.of_nat (List.length (c0 :: rest)) <= st ->
  create_plan_json (c0 :: rest) st d r
  = Ok (Some (make_plan [make_item c0 1 d r] [lat c0; lon c0; d])).
Proof.
  intros c0 rest st d r Hst.
  assert (HL : 1 <= Z.of_nat (List.length (c0 :: rest))) by (cbn [List.length]; lia).
  rewrite create_plan_json_pos by lia; unfold strided.
  assert (Hq : (Z.of_nat (List.length (c0 :: rest)) + st - 1) / st = 1).
  { assert (1 <= (Z.of_nat (List.length (c0 :: rest)) + st - 1) / st)
      by (apply Z.div_le_lower_bound; lia).
    assert ((Z.of_nat (List.length (c0 :: rest)) + st - 1) / st < 2)
      by (apply Z.div_lt_upper_bound; lia).
    lia. }
  rewrite Hq; reflexivity.
Qed.

Lemma create_plan_json_step_large_witness :
  Z.of_nat (List.length [mkpoint one one one; p0]) <= 5
  /\ create_plan_json [mkpoint one one one; p0] 5 zero one
     = Ok (Some (make_plan [make_item (mkpoint one one one) 1 zero one] [one; one; zero])).
Proof. split; [cbn; lia | apply create_plan_json_step_large; cbn; lia]. Defined.

(** Every plan built has the fixed schema: file type ["Plan"] for
    ["QGroundControl"], a rover mission (firmware 4, vehicle 4, version 2,
    speeds 5), empty [geoFence] and [rallyPoints]; every item is a
    ["SimpleItem"] [MAV_CMD_NAV_WAYPOINT] (16) in frame 3, altitude mode 1,
    auto-continue, no terrain altitude, with seven parameters starting
    [0.0, acceptance_radius, 0.0]. *)
Theorem create_plan_json_schema : forall coords st d r pl,
  create_plan_json coords st d r = Ok (Some pl) ->
  fileType pl = "Plan"%string /\ groundStation pl = "QGroundControl"%string
  /\ plan_version pl = 1
  /\ firmwareType (plan_mission pl) = 4 /\ vehicleType (plan_mission pl) = 4
  /\ mission_version (plan_mission pl) = 2
  /\ cruiseSpeed (plan_mission pl) = 5 /\ hoverSpeed (plan_mission pl) = 5
  /\ circles (geoFence pl) = [] /\ polygons (geoFence pl) = []
  /\ rally_points (rallyPoints pl) = []
  /\ Forall (fun it =>
       item_type it = "SimpleItem"%string /\ command it = 16 /\ frame it = 3
       /\ AltitudeMode it = 1 /\ autoContinue it = true
       /\ AMSLAltAboveTerrain it = None
       /\ List.length (params it) = 7%nat
       /\ firstn 3 (params it) = [Some zero; Some r; Some zero])
     (items (plan_mission pl)).
Proof.
  intros coords st d r pl H.
  destruct (Z.ltb_spec st 1) as [Hst|Hst].
  { exfalso; exact (create_plan_json_nonpos coords st d r pl Hst H). }
  destruct coords as [|c0 rest]; [discriminate|].
  rewrite create_plan_json_pos in H by lia; injection H as <-.
  cbn [make_plan items plan_mission fileType groundStation plan_version firmwareType
       vehicleType mission_version cruiseSpeed hoverSpeed geoFence circles polygons
       rallyPoints rally_points].
  do 11 (split; [reflexivity|]).
  apply Forall_forall; intros it Hit.
  apply In_nth_error in Hit; destruct Hit as [k Hk].
  destruct (strided_items_nth _ _ _ _ _ _ Hst Hk) as (p & _ & ->).
  repeat split.
Qed.

Lemma create_plan_json_schema_witness :
  let pl := make_plan [make_item p0 1 zero one] [zero; zero; zero] in
  create_plan_json [p0] 1 zero one = Ok (Some pl)
  /\ (fileType pl = "Plan"%string /\ groundStation pl = "QGroundControl"%string
  /\ plan_version pl = 1
  /\ firmwareType (plan_mission pl) = 4 /\ vehicleType (plan_mission pl) = 4
  /\ mission_version (plan_mission pl) = 2
  /\ cruiseSpeed (plan_mission pl) = 5 /\ hoverSpeed (plan_mission pl) = 5
  /\ circles (geoFence pl) = [] /\ polygons (geoFence pl) = []
  /\ rally_points (rallyPoints pl) = []
  /\ Forall (fun it =>
       item_type it = "SimpleItem"%string /\ command it = 16 /\ frame it = 3
       /\ AltitudeMode it = 1 /\ autoContinue it = true
       /\ AMSLAltAboveTerrain it = None
       /\ List.length (params it) = 7%nat
       /\ firstn 3 (params it) = [Some zero; Some one; Some zero])
     (items (plan_mission pl))).
Proof.
  intros pl; split; [reflexivity|].
  apply (create_plan_json_schema [p0] 1 zero one pl); reflexivity.
Defined.

(** ** parse_gpx: documents split into parts *)

Lemma trkpt_loop_acc : forall py_float ns l acc,
  trkpt_loop py_float ns l acc
  = match trkpt_loop py_float ns l [] with
    | Ok r => Ok (acc ++ r)
    | Raise e => Raise e
    end.
Proof.
  intros py_float ns l; induction l as [|t l IH]; intros acc.
  - cbn; rewrite app_nil_r; reflexivity.
  - cbn [trkpt_loop].
    destruct (parse_trkpt py_float ns t) as [p|[]]; try apply IH; try reflexivity.
    rewrite (IH (acc ++ [p])), (IH ([] ++ [p])).
    destruct (trkpt_loop py_float ns l []); [rewrite <- app_assoc|]; reflexivity.
Qed.

Lemma trkpt_loop_app : forall py_float ns l1 l2 acc,
  trkpt_loop py_float ns (l1 ++ l2) acc
  = (r <- trkpt_loop py_float ns l1 acc ;; trkpt_loop py_float ns l2 r).
Proof.
  intros py_float ns l1 l2; induction l1 as [|t l1 IH]; intros acc; [reflexivity|].
  cbn [app trkpt_loop].
  destruct (parse_trkpt py_float ns t) as [p|[]]; try apply IH; reflexivity.
Qed.

Lemma iter_tag_El_other : forall tag t a x ch, t <> tag ->
  iter_tag tag (El t a x ch) = filter (fun e => String.eqb (el_tag e) tag) (flat_map iter_all ch).
Proof.
  intros tag t a x ch Ht; unfold iter_tag; rewrite iter_all_El; cbn [filter el_tag].
  destruct (String.eqb_spec t tag); [contradiction | reflexivity].
Qed.

(** On a root that is not itself a track point, the points of a document
    whose top-level children are [ch1 ++ ch2] are the points found with the
    children [ch1] followed by those found with [ch2]: several tracks or
    segments are read one after the other, in order. *)
Theorem parse_gpx_children_app : forall py_float t a x ch1 ch2,
  t <> nstag (detect_ns t) "trkpt" ->
  exists p1 p2,
    parse_gpx py_float (ETParsed (El t a x ch1)) = Ok (Some p1)
    /\ parse_gpx py_float (ETParsed (El t a x ch2)) = Ok (Some p2)
    /\ parse_gpx py_float (ETParsed (El t a x (ch1 ++ ch2))) = Ok (Some (p1 ++ p2)).
Proof.
  intros py_float t a x ch1 ch2 Ht.
  unfold parse_gpx; cbn [el_tag].
  set (ns := detect_ns t) in *.
  rewrite !iter_tag_El_other by exact Ht.
  rewrite flat_map_app, filter_app, trkpt_loop_app.
  destruct (trkpt_loop_spec py_float ns
              (filter (fun e => String.eqb (el_tag e) (nstag ns "trkpt"))
                      (flat_map iter_all ch1)) []) as (p1 & H1 & _).
  destruct (trkpt_loop_spec py_float ns
              (filter (fun e => String.eqb (el_tag e) (nstag ns "trkpt"))
                      (flat_map iter_all ch2)) []) as (p2 & H2 & _).
  exists p1, p2; rewrite H1, H2; cbn [app py_bind].
  rewrite trkpt_loop_acc, H2; repeat split.
Qed.

Lemma parse_gpx_children_app_witness :
  "gpx"%string <> nstag (detect_ns "gpx") "trkpt"
  /\ exists p1 p2,
    parse_gpx dec_float (ETParsed (El "gpx" [] None [El "trkpt" [("lat", "1"); ("lon", "2")] None []]))
      = Ok (Some p1)
    /\ parse_gpx dec_float (ETParsed (El "gpx" [] None [El "trk" [] None []])) = Ok (Some p2)
    /\ parse_gpx dec_float
         (ETParsed (El "gpx" [] None ([El "trkpt" [("lat", "1"); ("lon", "2")] None []]
                                      ++ [El "trk" [] None []])))
       = Ok (Some (p1 ++ p2)).
Proof.
  split; [vm_compute; discriminate|].
  apply parse_gpx_children_app; vm_compute; discriminate.
Defined.

(** ** main: exit paths *)

Section MainProofs.

Variable py_int : string -> option Z.
Variable py_float : string -> option flt.

(** With valid arguments, [main] parses, filters, and either stops or
    writes the plan of the filtered points; [create_plan_json] always
    succeeds there. *)
Lemma main_args_ok_eq : forall argv fs w st lat1 lon1 lat2 lon2,
  args_ok py_int py_float argv st lat1 lon1 lat2 lon2 ->
  main py_int py_float argv fs w
  = match parse_gpx py_float (fs (nth 1 argv "")) with
    | Raise _ => exit_with 1
    | Ok None | Ok (Some []) => exit_with 2
    | Ok (Some cs) =>
        match filter_coords_by_bbox (Some cs) lat1 lon1 lat2 lon2 with
        | [] => exit_with 0
        | c0 :: rest =>
            if w (nth 7 argv "")
            then mkoutcome 0 (Some (nth 7 argv "",
                   make_plan (numbered_items (strided (c0 :: rest) st) 1 zero two)
                             [lat c0; lon c0; zero]))
            else exit_with 5
        end
    end.
Proof.
  intros argv fs w st lat1 lon1 lat2 lon2 (Hl & Hi & Hst & H3 & H4 & H5 & H6).
  unfold main, main_body.
  replace (List.length argv <? 8)%nat with false by (symmetry; apply Nat.ltb_ge; exact Hl).
  rewrite Hi; replace (st <? 1) with false by (symmetry; apply Z.ltb_ge; lia).
  rewrite H3, H4, H5, H6.
  destruct (parse_gpx py_float (fs (nth 1 argv ""))) as [[[|c cs]|]|e]; try reflexivity.
  cbn [py_bind].
  destruct (filter_coords_by_bbox (Some (c :: cs)) lat1 lon1 lat2 lon2) as [|c0 rest];
    [reflexivity|].
  rewrite create_plan_json_pos by exact Hst; cbn [py_bind].
  destruct (w (nth 7 argv "")); reflexivity.
Qed.

(** The arguments fail the checks of [main] when one of these holds. *)
Definition args_bad (argv : list string) : Prop :=
  (List.length argv < 8)%nat
  \/ py_int (nth 2 argv "") = None
  \/ (exists st, py_int (nth 2 argv "") = Some st /\ st < 1)
  \/ py_float (nth 3 argv "") = None \/ py_float (nth 4 argv "") = None
  \/ py_float (nth 5 argv "") = None \/ py_float (nth 6 argv "") = None.

Lemma main_args_cases : forall argv,
  args_bad argv
  \/ exists st lat1 lon1 lat2 lon2, args_ok py_int py_float argv st lat1 lon1 lat2 lon2.
Proof.
  intros argv; unfold args_bad, args_ok.
  destruct (Nat.ltb_spec (List.length argv) 8) as [Hl|Hl]; [left; left; exact Hl|].
  destruct (py_int (nth 2 argv "")) as [st|] eqn:Hi; [|left; right; left; reflexivity].
  destruct (Z.ltb_spec st 1) as [Hs|Hs]; [left; right; right; left; eauto|].
  destruct (py_float (nth 3 argv "")) as [a1|] eqn:H3; [|left; do 3 right; left; reflexivity].
  destruct (py_float (nth 4 argv "")) as [o1|] eqn:H4; [|left; do 4 right; left; reflexivity].
  destruct (py_float (nth 5 argv "")) as [a2|] eqn:H5; [|left; do 5 right; left; reflexivity].
  destruct (py_float (nth 6 argv "")) as [o2|] eqn:H6; [|left; do 6 right; reflexivity].
  right; exists st, a1, o1, a2, o2; repeat split; assumption.
Qed.

Lemma main_args_bad_eq : forall argv fs w,
  args_bad argv -> main py_int py_float argv fs w = exit_with 1.
Proof.
  intros argv fs w H; unfold main, main_body.
  destruct (Nat.ltb_spec (List.length argv) 8) as [Hl|Hl]; [reflexivity|].
  destruct (py_int (nth 2 argv "")) as [st|] eqn:Hi; [|reflexivity].
  destruct (Z.ltb_spec st 1) as [Hs|Hs]; [reflexivity|].
  destruct (py_float (nth 3 argv "")) eqn:H3; [|reflexivity].
  destruct (py_float (nth 4 argv "")) eqn:H4; [|reflexivity].
  destruct (py_float (nth 5 argv "")) eqn:H5; [|reflexivity].
  destruct (py_float (nth 6 argv "")) eqn:H6; [|reflexivity].
  exfalso; unfold args_bad in H.
  destruct H as [H|[H|[(st' & H & H')|[H|[H|[H|H]]]]]]; try lia; try congruence.
  rewrite Hi in H; injection H as <-; lia.
Qed.

End MainProofs.

(** A point kept by the filter is a point of the input inside the box. *)
Lemma filter_coords_by_bbox_In : forall cs a1 o1 a2 o2 p,
  In p (filter_coords_by_bbox (Some cs) a1 o1 a2 o2) ->
  In p cs /\ in_bbox (py_min a1 a2) (py_max a1 a2) (py_min o1 o2) (py_max o1 o2) p = true.
Proof.
  intros cs a1 o1 a2 o2 p H; unfold filter_coords_by_bbox in H.
  rewrite bbox_loop_filter in H; cbn [List.app] in H.
  apply filter_In in H; exact H.
Qed.

(** What a run that writes a plan file went through. *)
Lemma main_written_inv : forall py_int py_float argv fs w path pl,
  written (main py_int py_float argv fs w) = Some (path, pl) ->
  exists st lat1 lon1 lat2 lon2 cs c0 rest,
    args_ok py_int py_float argv st lat1 lon1 lat2 lon2
    /\ parse_gpx py_float (fs (nth 1 argv "")) = Ok (Some cs)
    /\ filter_coords_by_bbox (Some cs) lat1 lon1 lat2 lon2 = c0 :: rest
    /\ path = nth 7 argv "" /\ w path = true
    /\ exit_code (main py_int py_float argv fs w) = 0
    /\ pl = make_plan (numbered_items (strided (c0 :: rest) st) 1 zero two)
                      [lat c0; lon c0; zero].
Proof.
  intros py_int py_float argv fs w path pl H.
  destruct (main_args_cases py_int py_float argv) as [Hb|(st & a1 & o1 & a2 & o2 & Ha)].
  - rewrite main_args_bad_eq in H by exact Hb; discriminate H.
  - rewrite (main_args_ok_eq py_int py_float argv fs w st a1 o1 a2 o2 Ha) in H |- *.
    destruct (parse_gpx py_float (fs (nth 1 argv ""))) as [[[|c cs]|]|e] eqn:Hp;
      try discriminate H.
    destruct (filter_coords_by_bbox (Some (c :: cs)) a1 o1 a2 o2) as [|c0 rest] eqn:Hf;
      [discriminate H|].
    destruct (w (nth 7 argv "")) eqn:Hw; [|discriminate H].
    cbn [written] in H; injection H as <- <-.
    exists st, a1, o1, a2, o2, (c :: cs), c0, rest; split; [exact Ha|].
    repeat split; first [assumption | reflexivity].
Qed.

Ltac solve_args_ok :=
  unfold args_ok; repeat split; first [vm_compute; reflexivity | cbn; lia].

(** main, lines 160-180: when [sys.argv] has fewer than 8 entries, or the
    step is not an integer or is below 1, or a corner coordinate is not a
    number, the run ends with status 1 and writes nothing, whatever the
    input file and the output path are. *)
Theorem main_bad_args_exit_1 : forall py_int py_float argv fs w,
  args_bad py_int py_float argv -> main py_int py_float argv fs w = exit_with 1.
Proof.
  intros py_int py_float argv fs w H; apply main_args_bad_eq; exact H.
Qed.

Lemma main_bad_args_exit_1_witness :
  args_bad dec_Z dec_float ["gps_parser.py"; "t.gpx"; "0"; "0"; "0"; "5"; "5"; "o.plan"]
  /\ main dec_Z dec_float ["gps_parser.py"; "t.gpx"; "0"; "0"; "0"; "5"; "5"; "o.plan"]
       (fun _ => ETFileNotFound) (fun _ => true) = exit_with 1.
Proof.
  assert (H : args_bad dec_Z dec_float
                ["gps_parser.py"; "t.gpx"; "0"; "0"; "0"; "5"; "5"; "o.plan"]).
  { right; right; left; exists 0; split; [reflexivity | lia]. }
  split; [exact H | apply (main_bad_args_exit_1 dec_Z dec_float _ _ _ H)].
Defined.

(** main: every run ends with status 0, 1, 2 or 5; status 4 (no plan
    produced) is never reached, because [create_plan_json] always returns a
    plan for the non-empty, step-positive input [main] passes it. *)
Theorem main_exit_codes : forall py_int py_float argv fs w,
  let c := exit_code (main py_int py_float argv fs w) in
  c = 0 \/ c = 1 \/ c = 2 \/ c = 5.
Proof.
  intros py_int py_float argv fs w c; subst c.
  destruct (main_args_cases py_int py_float argv) as [Hb|(st & a1 & o1 & a2 & o2 & Ha)].
  - rewrite main_args_bad_eq by exact Hb; cbn; tauto.
  - rewrite (main_args_ok_eq py_int py_float argv fs w st a1 o1 a2 o2 Ha).
    destruct (parse_gpx py_float (fs (nth 1 argv ""))) as [[[|c cs]|]|e];
      try (cbn; tauto).
    destruct (filter_coords_by_bbox (Some (c :: cs)) a1 o1 a2 o2); [cbn; tauto|].
    destruct (w (nth 7 argv "")); cbn; tauto.
Qed.

(** main, lines 183-215: a run that writes a plan file ends with status 0,
    writes to [argv[7]], and the plan written is what [create_plan_json]
    returns on the parsed points inside the box, with the step of
    [argv[2]], altitude [0.0] and acceptance radius [2.0]. *)
Theorem main_written_plan : forall py_int py_float argv fs w path pl,
  written (main py_int py_float argv fs w) = Some (path, pl) ->
  exit_code (main py_int py_float argv fs w) = 0
  /\ path = nth 7 argv "" /\ w path = true
  /\ exists st lat1 lon1 lat2 lon2 cs,
       args_ok py_int py_float argv st lat1 lon1 lat2 lon2
       /\ parse_gpx py_float (fs (nth 1 argv "")) = Ok (Some cs)
       /\ create_plan_json (filter_coords_by_bbox (Some cs) lat1 lon1 lat2 lon2)
                           st zero two = Ok (Some pl).
Proof.
  intros py_int py_float argv fs w path pl H.
  destruct (main_written_inv py_int py_float argv fs w path pl H)
    as (st & a1 & o1 & a2 & o2 & cs & c0 & rest & Ha & Hp & Hf & Hpa & Hw & He & Hpl).
  split; [exact He|]; split; [exact Hpa|]; split; [exact Hw|].
  exists st, a1, o1, a2, o2, cs; split; [exact Ha|]; split; [exact Hp|].
  rewrite Hf, Hpl; apply create_plan_json_pos.
  destruct Ha as (_ & _ & Hst & _); exact Hst.
Qed.

Lemma main_written_plan_witness :
  exists path pl,
    written (main dec_Z dec_float
               ["gps_parser.py"; "t.gpx"; "1"; "0"; "0"; "5"; "5"; "o.plan"]
               (fun _ => ETParsed (El "gpx" [] None
                          [El "trkpt" [("lat", "1"); ("lon", "2")] None []]))
               (fun _ => true)) = Some (path, pl)
    /\ exit_code (main dec_Z dec_float
               ["gps_parser.py"; "t.gpx"; "1"; "0"; "0"; "5"; "5"; "o.plan"]
               (fun _ => ETParsed (El "gpx" [] None
                          [El "trkpt" [("lat", "1"); ("lon", "2")] None []]))
               (fun _ => true)) = 0
    /\ path = nth 7 ["gps_parser.py"; "t.gpx"; "1"; "0"; "0"; "5"; "5"; "o.plan"] "".
Proof.
  eexists; eexists.
  match goal with
  | |- ?h = Some (?a, ?b) /\ _ =>
      let H := fresh "H" in
      assert (H : h = Some (a, b)) by (cbv; reflexivity);
      split; [exact H|];
      destruct (main_written_plan _ _ _ _ _ _ _ H) as (H1 & H2 & _);
      split; [exact H1 | exact H2]
  end.
Defined.

(** main: in a written plan, the home position and the latitude and
    longitude ([params[4]], [params[5]]) of every waypoint are those of a
    parsed track point that lies inside the box of the corner arguments
    [argv[3..6]]. *)
Theorem main_written_points_in_box : forall py_int py_float argv fs w path pl,
  written (main py_int py_float argv fs w) = Some (path, pl) ->
  exists lat1 lon1 lat2 lon2 cs,
    py_float (nth 3 argv "") = Some lat1 /\ py_float (nth 4 argv "") = Some lon1
    /\ py_float (nth 5 argv "") = Some lat2 /\ py_float (nth 6 argv "") = Some lon2
    /\ parse_gpx py_float (fs (nth 1 argv "")) = Ok (Some cs)
    /\ (exists p, In p cs
          /\ in_bbox (py_min lat1 lat2) (py_max lat1 lat2)
                     (py_min lon1 lon2) (py_max lon1 lon2) p = true
          /\ plannedHomePosition (plan_mission pl) = [lat p; lon p; zero])
    /\ (forall it, In it (items (plan_mission pl)) ->
          exists p, In p cs
          /\ in_bbox (py_min lat1 lat2) (py_max lat1 lat2)
                     (py_min lon1 lon2) (py_max lon1 lon2) p = true
          /\ nth_error (params it) 4 = Some (Some (lat p))
          /\ nth_error (params it) 5 = Some (Some (lon p))).
Proof.
  intros py_int py_float argv fs w path pl H.
  destruct (main_written_inv py_int py_float argv fs w path pl H)
    as (st & a1 & o1 & a2 & o2 & cs & c0 & rest & Ha & Hp & Hf & _ & _ & _ & Hpl).
  destruct Ha as (_ & _ & Hst & H3 & H4 & H5 & H6).
  exists a1, o1, a2, o2, cs.
  do 5 (split; [assumption|]).
  subst pl; cbn [plan_mission make_plan plannedHomePosition items].
  split.
  - exists c0.
    destruct (filter_coords_by_bbox_In cs a1 o1 a2 o2 c0) as [Hin Hb];
      [rewrite Hf; left; reflexivity|].
    split; [exact Hin|]; split; [exact Hb | reflexivity].
  - intros it Hit.
    apply In_nth_error in Hit as (k & Hk).
    destruct (strided_items_nth (c0 :: rest) st zero two k it Hst Hk) as (p & Hn & ->).
    apply nth_error_In in Hn.
    rewrite <- Hf in Hn.
    destruct (filter_coords_by_bbox_In cs a1 o1 a2 o2 p Hn) as [Hin Hb].
    exists p; split; [exact Hin|]; split; [exact Hb|]; split; reflexivity.
Qed.

Lemma main_written_points_in_box_witness :
  exists path pl,
    written (main dec_Z dec_float
               ["gps_parser.py"; "t.gpx"; "1"; "0"; "0"; "5"; "5"; "o.plan"]
               (fun _ => ETParsed (El "gpx" [] None
                          [El "trkpt" [("lat", "1"); ("lon", "2")] None [];
                           El "trkpt" [("lat", "9"); ("lon", "2")] None []]))
               (fun _ => true)) = Some (path, pl)
    /\ forall it, In it (items (plan_mission pl)) ->
         exists p, in_bbox (float_of_Z 0) (float_of_Z 5) (float_of_Z 0) (float_of_Z 5) p = true
                   /\ nth_error (params it) 4 = Some (Some (lat p)).
Proof.
  eexists; eexists.
  match goal with
  | |- ?h = Some (?a, ?b) /\ _ =>
      let H := fresh "H" in
      assert (H : h = Some (a, b)) by (cbv; reflexivity);
      split; [exact H|];
      destruct (main_written_points_in_box _ _ _ _ _ _ _ H)
        as (a1 & o1 & a2 & o2 & cs & H3 & H4 & H5 & H6 & _ & _ & Hit)
  end.
  vm_compute in H3, H4, H5, H6.
  injection H3 as <-; injection H4 as <-; injection H5 as <-; injection H6 as <-.
  intros it Hi; destruct (Hit it Hi) as (p & _ & Hb & H4' & _).
  exists p; split; [exact Hb | exact H4'].
Defined.

(** main, lines 183-188: with valid arguments, when the input file does not
    parse, does not exist, or holds no track point with a numeric [lat] and
    [lon], the run ends with status 2 and writes nothing. *)
Theorem main_no_points_exit_2 : forall py_int py_float argv fs w st lat1 lon1 lat2 lon2,
  args_ok py_int py_float argv st lat1 lon1 lat2 lon2 ->
  fs (nth 1 argv "") = ETParseError \/ fs (nth 1 argv "") = ETFileNotFound
  \/ (exists root, fs (nth 1 argv "") = ETParsed root
       /\ filter (latlon_valid py_float)
            (iter_tag (nstag (detect_ns (el_tag root)) "trkpt") root) = []) ->
  main py_int py_float argv fs w = exit_with 2.
Proof.
  intros py_int py_float argv fs w st lat1 lon1 lat2 lon2 Ha Hr.
  rewrite (main_args_ok_eq py_int py_float argv fs w st lat1 lon1 lat2 lon2 Ha).
  destruct Hr as [Hr|[Hr|(root & Hr & Hf)]]; rewrite Hr; try reflexivity.
  destruct (trkpt_loop_spec py_float (detect_ns (el_tag root))
              (iter_tag (nstag (detect_ns (el_tag root)) "trkpt") root) [])
    as (pts & Hl & H2).
  rewrite Hf in H2; inversion H2; subst pts.
  unfold parse_gpx; cbv zeta; rewrite Hl; reflexivity.
Qed.

Lemma main_no_points_exit_2_witness :
  args_ok dec_Z dec_float ["gps_parser.py"; "t.gpx"; "1"; "0"; "0"; "5"; "5"; "o.plan"]
    1 (float_of_Z 0) (float_of_Z 0) (float_of_Z 5) (float_of_Z 5)
  /\ main dec_Z dec_float ["gps_parser.py"; "t.gpx"; "1"; "0"; "0"; "5"; "5"; "o.plan"]
       (fun _ => ETParsed (El "gpx" [] None [El "trkpt" [("lat", "x"); ("lon", "2")] None []]))
       (fun _ => true) = exit_with 2.
Proof.
  assert (Ha : args_ok dec_Z dec_float
                 ["gps_parser.py"; "t.gpx"; "1"; "0"; "0"; "5"; "5"; "o.plan"]
                 1 (float_of_Z 0) (float_of_Z 0) (float_of_Z 5) (float_of_Z 5))
    by solve_args_ok.
  split; [exact Ha|].
  apply (main_no_points_exit_2 _ _ _ _ _ _ _ _ _ _ Ha).
  right; right; eexists; split; [reflexivity | vm_compute; reflexivity].
Defined.

(** main, lines 192-197: with valid arguments and at least one parsed point,
    when no point lies inside the box the run ends with status 0 and writes
    no plan file. *)
Theorem main_empty_box_exit_0 : forall py_int py_float argv fs w st lat1 lon1 lat2 lon2 cs,
  args_ok py_int py_float argv st lat1 lon1 lat2 lon2 ->
  parse_gpx py_float (fs (nth 1 argv "")) = Ok (Some cs) ->
  cs <> [] ->
  filter_coords_by_bbox (Some cs) lat1 lon1 lat2 lon2 = [] ->
  main py_int py_float argv fs w = exit_with 0.
Proof.
  intros py_int py_float argv fs w st lat1 lon1 lat2 lon2 cs Ha Hp Hne Hf.
  rewrite (main_args_ok_eq py_int py_float argv fs w st lat1 lon1 lat2 lon2 Ha), Hp.
  destruct cs as [|c cs]; [contradiction|].
  rewrite Hf; reflexivity.
Qed.

Lemma main_empty_box_exit_0_witness :
  args_ok dec_Z dec_float ["gps_parser.py"; "t.gpx"; "1"; "10"; "10"; "20"; "20"; "o.plan"]
    1 (float_of_Z 10) (float_of_Z 10) (float_of_Z 20) (float_of_Z 20)
  /\ main dec_Z dec_float ["gps_parser.py"; "t.gpx"; "1"; "10"; "10"; "20"; "20"; "o.plan"]
       (fun _ => ETParsed (El "gpx" [] None [El "trkpt" [("lat", "1"); ("lon", "2")] None []]))
       (fun _ => true) = exit_with 0.
Proof.
  assert (Ha : args_ok dec_Z dec_float
                 ["gps_parser.py"; "t.gpx"; "1"; "10"; "10"; "20"; "20"; "o.plan"]
                 1 (float_of_Z 10) (float_of_Z 10) (float_of_Z 20) (float_of_Z 20))
    by solve_args_ok.
  split; [exact Ha|].
  apply (main_empty_box_exit_0 _ _ _ _ _ _ _ _ _ _ [mkpoint one two zero] Ha);
    [vm_compute; reflexivity | discriminate | vm_compute; reflexivity].
Defined.

(** main, lines 210-215: with valid arguments and at least one point inside
    the box, when the output file cannot be written the run ends with
    status 5 and no plan file. *)
Theorem main_write_failure_exit_5 : forall py_int py_float argv fs w st lat1 lon1 lat2 lon2 cs,
  args_ok py_int py_float argv st lat1 lon1 lat2 lon2 ->
  parse_gpx py_float (fs (nth 1 argv "")) = Ok (Some cs) ->
  filter_coords_by_bbox (Some cs) lat1 lon1 lat2 lon2 <> [] ->
  w (nth 7 argv "") = false ->
  main py_int py_float argv fs w = exit_with 5.
Proof.
  intros py_int py_float argv fs w st lat1 lon1 lat2 lon2 cs Ha Hp Hne Hw.
  rewrite (main_args_ok_eq py_int py_float argv fs w st lat1 lon1 lat2 lon2 Ha), Hp.
  destruct cs as [|c cs]; [contradiction|].
  destruct (filter_coords_by_bbox (Some (c :: cs)) lat1 lon1 lat2 lon2); [contradiction|].
  rewrite Hw; reflexivity.
Qed.

Lemma main_write_failure_exit_5_witness :
  args_ok dec_Z dec_float ["gps_parser.py"; "t.gpx"; "1"; "0"; "0"; "5"; "5"; "o.plan"]
    1 (float_of_Z 0) (float_of_Z 0) (float_of_Z 5) (float_of_Z 5)
  /\ main dec_Z dec_float ["gps_parser.py"; "t.gpx"; "1"; "0"; "0"; "5"; "5"; "o.plan"]
       (fun _ => ETParsed (El "gpx" [] None [El "trkpt" [("lat", "1"); ("lon", "2")] None []]))
       (fun _ => false) = exit_with 5.
Proof.
  assert (Ha : args_ok dec_Z dec_float
                 ["gps_parser.py"; "t.gpx"; "1"; "0"; "0"; "5"; "5"; "o.plan"]
                 1 (float_of_Z 0) (float_of_Z 0) (float_of_Z 5) (float_of_Z 5))
    by solve_args_ok.
  split; [exact Ha|].
  apply (main_write_failure_exit_5 _ _ _ _ _ _ _ _ _ _ [mkpoint one two zero] Ha);
    [vm_compute; reflexivity | vm_compute; discriminate | reflexivity].
Defined.
